(** * herkos: the Sphinx build configuration [docs/conf.py]

    [docs/conf.py] is a Python module made of top-level assignments of
    string literals and of lists of string literals.  Sphinx executes the
    module in a namespace (a dict from names to values) and afterwards reads
    its settings out of that namespace by name.

    The module is embedded as a namespace transformer [conf]: one [assign]
    per assignment statement, in source order.  The settings record is what
    is read back out of the resulting namespace. *)

From Stdlib Require Import String List.
From stdpp Require Import base strings gmap list.

Local Open Scope string_scope.

Module Conf.

(** ** Values and namespaces *)

(** The two shapes of Python value the module binds: a [str] literal and a
    [list] of [str] literals. *)
Inductive value : Type :=
  | VStr (s : string)
  | VList (l : list string).

#[global] Instance value_eq_dec : EqDecision value.
Proof. solve_decision. Defined.

(** A module namespace: the globals dict the module body runs in. *)
Abbreviation namespace := (gmap string value).

(** [name = v] at module level: bind (or rebind) [name] in the globals. *)
Definition assign (name : string) (v : value) (g : namespace) : namespace :=
  <[name := v]> g.

(** ** The module body *)

(** The body of [docs/conf.py], statement by statement.  The argument is the
    namespace the host hands to the module before running it. *)
Definition conf (g : namespace) : namespace :=
  (* -- Project information -- *)
  let g := assign "project" (VStr "herkos") g in
  let g := assign "copyright" (VStr "2026, Arnaud Riess") g in
  let g := assign "author" (VStr "Arnaud Riess") g in
  let g := assign "release" (VStr "0.1.0") g in
  (* -- General configuration -- *)
  let g := assign "extensions" (VList ["myst_parser"; "sphinx_needs"]) g in
  let g := assign "myst_enable_extensions" (VList ["colon_fence"]) g in
  let g := assign "templates_path" (VList ["_templates"]) g in
  let g := assign "exclude_patterns"
                  (VList ["_build"; "Thumbs.db"; ".DS_Store"]) g in
  (* -- Sphinx-Needs configuration -- *)
  let g := assign "needs_from_toml" (VStr "ubproject.toml") g in
  (* -- Options for HTML output -- *)
  let g := assign "html_theme" (VStr "alabaster") g in
  let g := assign "html_static_path" (VList ["_static"]) g in
  g.

(** ** Reading the settings back *)

(** What can go wrong when a setting is read by name: the name is unbound,
    or it is bound to a value of the other shape. *)
Inductive error : Type :=
  | Unbound (name : string)
  | WrongShape (name : string).

Inductive result (A : Type) : Type :=
  | Ok (a : A)
  | Err (e : error).
Arguments Ok {A} a.
Arguments Err {A} e.

Definition bind {A B : Type} (r : result A) (k : A -> result B) : result B :=
  match r with
  | Ok a => k a
  | Err e => Err e
  end.

Definition rmap {A B : Type} (f : A -> B) (r : result A) : result B :=
  bind r (fun a => Ok (f a)).

Notation "'let*' x ':=' r 'in' k" := (bind r (fun x => k))
  (at level 10, x name, r at level 100, k at level 200).

Definition get_str (name : string) (g : namespace) : result string :=
  match g !! name with
  | Some (VStr s) => Ok s
  | Some (VList _) => Err (WrongShape name)
  | None => Err (Unbound name)
  end.

Definition get_list (name : string) (g : namespace) : result (list string) :=
  match g !! name with
  | Some (VList l) => Ok l
  | Some (VStr _) => Err (WrongShape name)
  | None => Err (Unbound name)
  end.

(** The Build Configuration: one field per name the module binds, under the
    name the module gives it. *)
Record BuildConfiguration : Type := {
  project : string;
  copyright : string;
  author : string;
  release : string;
  extensions : list string;
  myst_enable_extensions : list string;
  templates_path : list string;
  exclude_patterns : list string;
  needs_from_toml : string;
  html_theme : string;
  html_static_path : list string
}.

(** Attribute lookup of every setting on an executed namespace. *)
Definition read_config (g : namespace) : result BuildConfiguration :=
  let* p := get_str "project" g in
  let* c := get_str "copyright" g in
  let* a := get_str "author" g in
  let* r := get_str "release" g in
  let* e := get_list "extensions" g in
  let* m := get_list "myst_enable_extensions" g in
  let* t := get_list "templates_path" g in
  let* x := get_list "exclude_patterns" g in
  let* n := get_str "needs_from_toml" g in
  let* h := get_str "html_theme" g in
  let* s := get_list "html_static_path" g in
  Ok {| project := p; copyright := c; author := a; release := r;
        extensions := e; myst_enable_extensions := m; templates_path := t;
        exclude_patterns := x; needs_from_toml := n; html_theme := h;
        html_static_path := s |}.

(** One read of the configuration: run the module in the namespace [g0]
    supplied by the host, then read the settings. *)
Definition load (g0 : namespace) : result BuildConfiguration :=
  read_config (conf g0).

(** ** The module body as a statement list *)

(** The assignment statements of [docs/conf.py] as data, in source order:
    the name each one binds and the literal on its right-hand side. *)
Definition statements : list (string * value) :=
  [ ("project", VStr "herkos");
    ("copyright", VStr "2026, Arnaud Riess");
    ("author", VStr "Arnaud Riess");
    ("release", VStr "0.1.0");
    ("extensions", VList ["myst_parser"; "sphinx_needs"]);
    ("myst_enable_extensions", VList ["colon_fence"]);
    ("templates_path", VList ["_templates"]);
    ("exclude_patterns", VList ["_build"; "Thumbs.db"; ".DS_Store"]);
    ("needs_from_toml", VStr "ubproject.toml");
    ("html_theme", VStr "alabaster");
    ("html_static_path", VList ["_static"]) ].

(** Execute a sequence of assignment statements from first to last. *)
Definition exec (stmts : list (string * value)) (g : namespace) : namespace :=
  foldl (fun g s => assign s.1 s.2 g) g stmts.

(** The names on the left-hand sides of the module's assignments. *)
Definition bound_names : list string := statements.*1.

(** ** Lookups in the executed namespace *)

(** Walk down the chain of [assign]s to the one that binds the name asked
    for; string disequalities are decided by computation. *)
Ltac find_binding :=
  unfold conf, assign; cbv zeta;
  repeat (rewrite lookup_insert_ne by (intros ?; discriminate));
  apply lookup_insert_eq.

Section Bindings.
Variable g : namespace.

Lemma conf_project : conf g !! "project" = Some (VStr "herkos").
Proof. find_binding. Qed.

Lemma conf_copyright :
  conf g !! "copyright" = Some (VStr "2026, Arnaud Riess").
Proof. find_binding. Qed.

Lemma conf_author : conf g !! "author" = Some (VStr "Arnaud Riess").
Proof. find_binding. Qed.

Lemma conf_release : conf g !! "release" = Some (VStr "0.1.0").
Proof. find_binding. Qed.

Lemma conf_extensions :
  conf g !! "extensions" = Some (VList ["myst_parser"; "sphinx_needs"]).
Proof. find_binding. Qed.

Lemma conf_myst_enable_extensions :
  conf g !! "myst_enable_extensions" = Some (VList ["colon_fence"]).
Proof. find_binding. Qed.

Lemma conf_templates_path :
  conf g !! "templates_path" = Some (VList ["_templates"]).
Proof. find_binding. Qed.

Lemma conf_exclude_patterns :
  conf g !! "exclude_patterns"
  = Some (VList ["_build"; "Thumbs.db"; ".DS_Store"]).
Proof. find_binding. Qed.

Lemma conf_needs_from_toml :
  conf g !! "needs_from_toml" = Some (VStr "ubproject.toml").
Proof. find_binding. Qed.

Lemma conf_html_theme : conf g !! "html_theme" = Some (VStr "alabaster").
Proof. find_binding. Qed.

Lemma conf_html_static_path :
  conf g !! "html_static_path" = Some (VList ["_static"]).
Proof. find_binding. Qed.
End Bindings.

Create HintDb conf_bindings.
Create Rewrite HintDb conf_lookup.
#[export] Hint Resolve conf_project conf_copyright conf_author conf_release
  conf_extensions conf_myst_enable_extensions conf_templates_path
  conf_exclude_patterns conf_needs_from_toml conf_html_theme
  conf_html_static_path : conf_bindings.
#[export] Hint Rewrite conf_project conf_copyright conf_author conf_release
  conf_extensions conf_myst_enable_extensions conf_templates_path
  conf_exclude_patterns conf_needs_from_toml conf_html_theme
  conf_html_static_path : conf_lookup.

(** Evaluate [load g0] down to the record it returns. *)
Ltac run_load :=
  unfold load, read_config, get_str, get_list;
  autorewrite with conf_lookup; cbn [bind rmap].

(** Rebinding a name to the value it already has leaves the namespace as it
    was. *)
Lemma assign_absorb (name : string) (v : value) (g : namespace) :
  g !! name = Some v -> assign name v g = g.
Proof. intros Hg. unfold assign. by apply insert_id. Qed.

Ltac absorb :=
  match goal with
  | |- context [assign ?n ?v (conf ?g)] =>
      rewrite (assign_absorb n v (conf g)) by auto with conf_bindings
  end.

(** Running the module body a second time, on the namespace the first run
    left behind, changes nothing. *)
Lemma conf_idempotent (g : namespace) : conf (conf g) = conf g.
Proof. unfold conf at 1; cbv zeta. repeat absorb. reflexivity. Qed.

(** The module body binds exactly its eleven names on top of what the host
    supplied. *)
Lemma dom_conf (g : namespace) :
  dom (conf g)
  = list_to_set ["project"; "copyright"; "author"; "release"; "extensions";
                 "myst_enable_extensions"; "templates_path";
                 "exclude_patterns"; "needs_from_toml"; "html_theme";
                 "html_static_path"] ∪ dom g.
Proof.
  unfold conf, assign; cbv zeta. rewrite !dom_insert_L.
  cbn [list_to_set foldr]. apply set_eq; intros k.
  rewrite !elem_of_union, !elem_of_singleton, elem_of_empty. tauto.
Qed.

(** Names the module does not bind keep the value the host gave them. *)
Lemma conf_frame (g : namespace) (name : string) :
  name ∉ dom (conf ∅) -> conf g !! name = g !! name.
Proof.
  rewrite dom_conf, dom_empty_L, right_id_L by apply _.
  cbn [list_to_set foldr]. intros Hn.
  unfold conf, assign; cbv zeta.
  repeat (rewrite lookup_insert_ne by set_solver). reflexivity.
Qed.

(** ** The settings *)

(** C1: the enabled-extensions field is exactly the ordered sequence
    ["myst_parser"; "sphinx_needs"], whatever namespace the module was run
    in. *)
Theorem extensions_exact (g0 : namespace) :
  rmap extensions (load g0) = Ok ["myst_parser"; "sphinx_needs"].
Proof. run_load. reflexivity. Qed.

(** C2: the exclude-patterns field holds exactly the three patterns
    "_build", "Thumbs.db" and ".DS_Store": it has three entries, and a
    pattern occurs in it if and only if it is one of these three. *)
Theorem exclude_patterns_exact (g0 : namespace) :
  exists ps : list string,
    rmap exclude_patterns (load g0) = Ok ps
    /\ length ps = 3
    /\ forall p : string,
         p ∈ ps <-> p = "_build" \/ p = "Thumbs.db" \/ p = ".DS_Store".
Proof.
  exists ["_build"; "Thumbs.db"; ".DS_Store"].
  split; [run_load; reflexivity|].
  split; [reflexivity|]. intros p.
  rewrite !elem_of_cons, elem_of_nil. tauto.
Qed.

(** C3: the external settings reference, [needs_from_toml], is the literal
    path string "ubproject.toml". *)
Theorem needs_from_toml_exact (g0 : namespace) :
  rmap needs_from_toml (load g0) = Ok "ubproject.toml".
Proof. run_load. reflexivity. Qed.

(** C4: the theme name is the literal "alabaster" and the release version
    is the literal "0.1.0". *)
Theorem theme_and_release_exact (g0 : namespace) :
  rmap html_theme (load g0) = Ok "alabaster"
  /\ rmap release (load g0) = Ok "0.1.0".
Proof. split; run_load; reflexivity. Qed.

(** C5: reading the configuration is deterministic.  Two reads return the
    same record field for field, whatever the two namespaces the module was
    run in held beforehand; and a second run of the module over the
    namespace left by the first one changes neither the namespace nor the
    record read from it. *)
Theorem load_deterministic (g1 g2 : namespace) :
  load g1 = load g2
  /\ conf (conf g1) = conf g1
  /\ load (conf g1) = load g1.
Proof.
  split; [|split].
  - transitivity (load ∅); [|symmetry]; run_load; reflexivity.
  - apply conf_idempotent.
  - unfold load. by rewrite conf_idempotent.
Qed.

(** C6: the project-name field is a non-empty string. *)
Theorem project_nonempty (g0 : namespace) :
  exists name : string,
    rmap project (load g0) = Ok name
    /\ name <> ""
    /\ 0 < String.length name.
Proof.
  exists "herkos". split; [run_load; reflexivity|].
  split; [discriminate|cbn; lia].
Qed.

(** C7: constructing and reading the configuration never fails: every read
    returns a record, and no error, neither an unbound name nor a value of
    the wrong shape, is ever returned. *)
Theorem load_total (g0 : namespace) :
  (exists cfg : BuildConfiguration, load g0 = Ok cfg)
  /\ (forall e : error, load g0 <> Err e).
Proof.
  assert (Hok : exists cfg, load g0 = Ok cfg)
    by (run_load; eexists; reflexivity).
  split; [exact Hok|].
  destruct Hok as [cfg Hcfg]. intros e. rewrite Hcfg. discriminate.
Qed.

(** C8: the exclude patterns are pairwise distinct: no pattern occurs twice
    in the field. *)
Theorem exclude_patterns_nodup (g0 : namespace) :
  exists ps : list string,
    rmap exclude_patterns (load g0) = Ok ps /\ NoDup ps.
Proof.
  exists ["_build"; "Thumbs.db"; ".DS_Store"].
  split; [run_load; reflexivity|].
  repeat (apply NoDup_cons_2; [|]); try apply NoDup_nil_2;
    rewrite ?elem_of_cons, elem_of_nil; intuition discriminate.
Qed.

(** C9: the Markdown sub-extensions field is exactly the one-element
    sequence ["colon_fence"]. *)
Theorem myst_enable_extensions_exact (g0 : namespace) :
  rmap myst_enable_extensions (load g0) = Ok ["colon_fence"].
Proof. run_load. reflexivity. Qed.

(** C10: the template search paths are exactly ["_templates"] and the
    static asset paths are exactly ["_static"]. *)
Theorem templates_and_static_exact (g0 : namespace) :
  rmap templates_path (load g0) = Ok ["_templates"]
  /\ rmap html_static_path (load g0) = Ok ["_static"].
Proof. split; run_load; reflexivity. Qed.

(** ** The module body as a whole *)

(** [conf] is the execution of [statements]. *)
Lemma conf_exec (g : namespace) : conf g = exec statements g.
Proof. reflexivity. Qed.

(** Executing statements overlays their bindings on the namespace, a later
    statement taking precedence over an earlier one for the same name. *)
Lemma exec_overlay (stmts : list (string * value)) (g : namespace) :
  exec stmts g = list_to_map (reverse stmts) ∪ g.
Proof.
  unfold exec. induction stmts as [|s stmts IH] using rev_ind.
  - cbn. by rewrite (left_id_L (∅ : namespace) (∪)).
  - rewrite foldl_snoc, IH, reverse_snoc. destruct s as [name v]; cbn.
    unfold assign. by rewrite insert_union_l.
Qed.

Lemma bound_names_nodup : NoDup bound_names.
Proof. apply (bool_decide_unpack _). by vm_compute. Qed.





(** X4: the order of the assignment statements is immaterial: executing
    them in any other order leaves the same namespace, because no name is
    assigned twice. *)
Theorem exec_order_irrelevant (stmts : list (string * value)) (g : namespace) :
  stmts ≡ₚ statements -> exec stmts g = conf g.
Proof.
  intros Hperm. rewrite conf_exec, !exec_overlay. f_equal.
  apply list_to_map_proper.
  - rewrite reverse_Permutation, Hperm. apply bound_names_nodup.
  - by rewrite !reverse_Permutation.
Qed.

Lemma exec_order_irrelevant_witness :
  reverse statements ≡ₚ statements
  /\ exec (reverse statements) ∅ = conf ∅.
Proof.
  assert (Hp : reverse statements ≡ₚ statements)
    by (apply (bool_decide_unpack _); vm_compute; exact I).
  split; [exact Hp | apply (exec_order_irrelevant _ _ Hp)].
Defined.

(** X5: the copyright notice names the author: it is the year "2026", a
    comma and a space, followed by the value of the author field. *)
Theorem copyright_names_author (g0 : namespace) :
  exists c a : string,
    rmap copyright (load g0) = Ok c
    /\ rmap author (load g0) = Ok a
    /\ c = "2026, " ++ a.
Proof.
  exists "2026, Arnaud Riess", "Arnaud Riess".
  repeat split; run_load; reflexivity.
Qed.

End Conf.
